(** * WindyPro desktop client: the Electron main process

    A shallow embedding of [src/client/desktop/main.js]: the window handle,
    the recording flag, the persisted store, the global shortcuts and the
    IPC handlers, together with the part of the Electron runtime they act
    on (open windows, registered accelerators, console, clipboard and the
    messages sent to the renderer). *)

From Stdlib Require Import ZArith String Ascii.
From stdpp Require Import gmap strings list.

Open Scope Z_scope.
Open Scope string_scope.

(** ** Values that cross the IPC boundary and live in the store

    The store (electron-store) is a JSON document on disk; IPC payloads and
    replies are plain JavaScript values.  Numbers that occur in this program
    are integers (a port, screen coordinates), so they are carried by [Z]. *)

#[warnings="-register-all"]
Inductive value : Type :=
  | VNull
  | VBool (b : bool)
  | VNum (n : Z)
  | VStr (s : string)
  | VArr (l : list value)
  | VObj (m : gmap string value).

(** ** The electron-store API used by the program

    [store.get(key, defaultValue)] and [store.set(key, value)] address the
    document by dot-notation: the key ['server.host'] is the property [host]
    of the property [server].  The keys of this program are plain property
    names separated by dots; array indices and escaped dots do not occur. *)

Module Store.

(** The key split at its dots; [acc] holds the current segment reversed. *)
Fixpoint split_dots (key acc : string) : list string :=
  match key with
  | EmptyString => [String.rev acc]
  | String c key' =>
      if Ascii.eqb c "."%char
      then String.rev acc :: split_dots key' EmptyString
      else split_dots key' (String c acc)
  end.

Definition getPathSegments (key : string) : list string :=
  split_dots key EmptyString.

(** Walk down the document; a missing property, or a value that is not an
    object on the way, ends the walk with nothing found. *)
Fixpoint getProperty (path : list string) (v : value) : option value :=
  match path with
  | [] => Some v
  | k :: rest =>
      match v with
      | VObj m =>
          match m !! k with
          | Some child => getProperty rest child
          | None => None
          end
      | _ => None
      end
  end.

(** Assign at the end of the path, creating an empty object wherever the
    path runs through something that is not an object. *)
Fixpoint setProperty (path : list string) (x : value) (v : value) : value :=
  match path with
  | [] => x
  | k :: rest =>
      let m := match v with VObj m => m | _ => ∅ end in
      VObj (<[k := setProperty rest x (default (VObj ∅) (m !! k))]> m)
  end.

(** The document itself is always an object.  [lookup] is what is
    persisted under a key, if anything. *)
Definition lookup (key : string) (doc : gmap string value) : option value :=
  getProperty (getPathSegments key) (VObj doc).

Definition get (key : string) (defaultValue : value)
    (doc : gmap string value) : value :=
  default defaultValue (lookup key doc).

Definition set (key : string) (x : value)
    (doc : gmap string value) : gmap string value :=
  match setProperty (getPathSegments key) x (VObj doc) with
  | VObj m => m
  | _ => doc
  end.

End Store.

(** ** The Electron runtime the program acts on *)

Record WebPreferences := {
  nodeIntegration : bool;
  contextIsolation : bool;
  backgroundThrottling : bool;
  preload : list string          (* path.join(__dirname, 'preload.js') *)
}.

Record BrowserWindowOptions := {
  opt_width : Z;
  opt_height : Z;
  opt_x : Z;
  opt_y : Z;
  opt_frame : bool;
  opt_transparent : bool;
  opt_alwaysOnTop : bool;
  opt_resizable : bool;
  opt_skipTaskbar : bool;
  opt_webPreferences : WebPreferences
}.

(** A window object; [win_id] is its identity, which is what a JavaScript
    reference to it carries. *)
Record BrowserWindow := {
  win_id : nat;
  win_options : BrowserWindowOptions;
  win_visible : bool;
  win_file : option (list string)  (* argument of loadFile, as path segments *)
}.

(** The callbacks handed to [globalShortcut.register]. *)
Inductive Callback :=
  | CbToggleRecording
  | CbToggleWindow.

(** A [webContents.send(channel, payload)] to the window [msg_to]. *)
Record Message := {
  msg_to : nat;
  msg_channel : string;
  msg_payload : value
}.

(** What the process is started in: the primary display's work area, the
    directory of the script, the platform name, and the accelerators the
    operating system will refuse because something else holds them. *)
Record Env := {
  workAreaSize : Z * Z;
  dirname : string;
  platform : string;
  claimed : gset string
}.

(** ** The program state

    The three module-level variables of main.js ([mainWindow], [isRecording]
    and the [store]; [tray] is never assigned) and the runtime state. *)
Record State := {
  mainWindow : option nat;
  isRecording : bool;
  store : gmap string value;
  windows : list BrowserWindow;      (* BrowserWindow.getAllWindows() *)
  nextWindowId : nat;
  shortcuts : gmap string Callback;  (* accelerators bound by this process *)
  console : list string;
  clipboard : string;
  sent : list Message;
  quitting : bool
}.

Inductive RecordingState := Idle | Listening.

Definition recordingState (s : State) : RecordingState :=
  if isRecording s then Listening else Idle.

(** Field updates. *)
Definition set_mainWindow (h : option nat) (s : State) : State :=
  {| mainWindow := h; isRecording := isRecording s; store := store s;
     windows := windows s; nextWindowId := nextWindowId s;
     shortcuts := shortcuts s; console := console s;
     clipboard := clipboard s; sent := sent s; quitting := quitting s |}.

Definition set_isRecording (b : bool) (s : State) : State :=
  {| mainWindow := mainWindow s; isRecording := b; store := store s;
     windows := windows s; nextWindowId := nextWindowId s;
     shortcuts := shortcuts s; console := console s;
     clipboard := clipboard s; sent := sent s; quitting := quitting s |}.

Definition set_store (d : gmap string value) (s : State) : State :=
  {| mainWindow := mainWindow s; isRecording := isRecording s; store := d;
     windows := windows s; nextWindowId := nextWindowId s;
     shortcuts := shortcuts s; console := console s;
     clipboard := clipboard s; sent := sent s; quitting := quitting s |}.

Definition set_windows (ws : list BrowserWindow) (s : State) : State :=
  {| mainWindow := mainWindow s; isRecording := isRecording s; store := store s;
     windows := ws; nextWindowId := nextWindowId s;
     shortcuts := shortcuts s; console := console s;
     clipboard := clipboard s; sent := sent s; quitting := quitting s |}.

Definition set_nextWindowId (n : nat) (s : State) : State :=
  {| mainWindow := mainWindow s; isRecording := isRecording s; store := store s;
     windows := windows s; nextWindowId := n;
     shortcuts := shortcuts s; console := console s;
     clipboard := clipboard s; sent := sent s; quitting := quitting s |}.

Definition set_shortcuts (sc : gmap string Callback) (s : State) : State :=
  {| mainWindow := mainWindow s; isRecording := isRecording s; store := store s;
     windows := windows s; nextWindowId := nextWindowId s;
     shortcuts := sc; console := console s;
     clipboard := clipboard s; sent := sent s; quitting := quitting s |}.

Definition set_clipboard (t : string) (s : State) : State :=
  {| mainWindow := mainWindow s; isRecording := isRecording s; store := store s;
     windows := windows s; nextWindowId := nextWindowId s;
     shortcuts := shortcuts s; console := console s;
     clipboard := t; sent := sent s; quitting := quitting s |}.

Definition set_quitting (q : bool) (s : State) : State :=
  {| mainWindow := mainWindow s; isRecording := isRecording s; store := store s;
     windows := windows s; nextWindowId := nextWindowId s;
     shortcuts := shortcuts s; console := console s;
     clipboard := clipboard s; sent := sent s; quitting := q |}.

(** [console.log(line)] *)
Definition console_log (line : string) (s : State) : State :=
  {| mainWindow := mainWindow s; isRecording := isRecording s; store := store s;
     windows := windows s; nextWindowId := nextWindowId s;
     shortcuts := shortcuts s; console := console s ++ [line];
     clipboard := clipboard s; sent := sent s; quitting := quitting s |}.

(** [win.webContents.send(channel, payload)] *)
Definition webContents_send (w : nat) (channel : string) (payload : value)
    (s : State) : State :=
  {| mainWindow := mainWindow s; isRecording := isRecording s; store := store s;
     windows := windows s; nextWindowId := nextWindowId s;
     shortcuts := shortcuts s; console := console s;
     clipboard := clipboard s;
     sent := sent s ++ [{| msg_to := w; msg_channel := channel;
                           msg_payload := payload |}];
     quitting := quitting s |}.

(** The text of a boolean inside a template literal. *)
Definition bool_text (b : bool) : string :=
  if b then "true" else "false".

(** ** main.js *)

Section Main.

Context (env : Env).

(** *** Window (Codon B1.2) *)

Definition mainWindowOptions : BrowserWindowOptions :=
  let '(width, height) := workAreaSize env in
  {| opt_width := 400;
     opt_height := 600;
     opt_x := width - 420;
     opt_y := height - 620;
     opt_frame := false;
     opt_transparent := true;
     opt_alwaysOnTop := true;
     opt_resizable := true;
     opt_skipTaskbar := false;
     opt_webPreferences :=
       {| nodeIntegration := false;
          contextIsolation := true;
          backgroundThrottling := false;
          preload := [dirname env; "preload.js"] |} |}.

(** [new BrowserWindow(options)]: a fresh window object, shown at once
    (Electron's default for [show]), listed among the open windows. *)
Definition BrowserWindow_new (options : BrowserWindowOptions) (s : State)
    : nat * State :=
  let id := nextWindowId s in
  let w := {| win_id := id; win_options := options;
              win_visible := true; win_file := None |} in
  (id, set_nextWindowId (S id) (set_windows (windows s ++ [w]) s)).

Definition update_window (id : nat) (f : BrowserWindow → BrowserWindow)
    (s : State) : State :=
  set_windows
    (map (fun w => if Nat.eqb (win_id w) id then f w else w) (windows s)) s.

Definition loadFile (id : nat) (file : list string) : State → State :=
  update_window id (fun w =>
    {| win_id := win_id w; win_options := win_options w;
       win_visible := win_visible w; win_file := Some file |}).

Definition set_visible (id : nat) (b : bool) : State → State :=
  update_window id (fun w =>
    {| win_id := win_id w; win_options := win_options w;
       win_visible := b; win_file := win_file w |}).

Definition find_window (id : nat) (s : State) : option BrowserWindow :=
  List.find (fun w => Nat.eqb (win_id w) id) (windows s).

(** Every window made by [createMainWindow] carries the same ['closed']
    listener, [mainWindow = null]. *)
Definition createMainWindow (s : State) : State :=
  let '(id, s1) := BrowserWindow_new mainWindowOptions s in
  let s2 := set_mainWindow (Some id) s1 in
  loadFile id [dirname env; "renderer"; "index.html"] s2.

(** *** Tray (Codon B1.3): the body is commented out. *)
Definition createTray (s : State) : State := s.

(** *** Recording flag *)

Definition toggleRecording (s : State) : State :=
  let s1 := set_isRecording (negb (isRecording s)) s in
  let s2 := console_log ("Recording state: " +:+ bool_text (isRecording s1)) s1 in
  match mainWindow s2 with
  | Some w =>
      let s3 := webContents_send w "toggle-recording"
                  (VBool (isRecording s2)) s2 in
      webContents_send w "state-change"
        (VStr (if isRecording s3 then "listening" else "idle")) s3
  | None => s2
  end.

(** *** Global hotkeys (Codon B1.4) *)

(** [globalShortcut.register(accelerator, callback)]: false, and nothing
    bound, when the accelerator is held by another application or is
    already bound by this one. *)
Definition globalShortcut_register (accel : string) (cb : Callback)
    (s : State) : bool * State :=
  if bool_decide (accel ∈ claimed env)
     || bool_decide (is_Some (shortcuts s !! accel))
  then (false, s)
  else (true, set_shortcuts (<[accel := cb]> (shortcuts s)) s).

Definition accelRecord : string := "CommandOrControl+Shift+Space".
Definition accelWindow : string := "CommandOrControl+Shift+W".

Definition registerHotkeys (s : State) : State :=
  let '(retRecord, s1) :=
    globalShortcut_register accelRecord CbToggleRecording s in
  let s2 :=
    if negb retRecord
    then console_log "Registration of Ctrl+Shift+Space failed" s1
    else s1 in
  let '(retWindow, s3) :=
    globalShortcut_register accelWindow CbToggleWindow s2 in
  s3.

(** The second shortcut's callback.  A handle always refers to an open
    window in the states the process reaches (see [single_window]); for any
    other state the callback is taken to do nothing. *)
Definition toggleWindow (s : State) : State :=
  match mainWindow s with
  | Some id =>
      match find_window id s with
      | Some w =>
          if win_visible w then set_visible id false s
          else set_visible id true s
      | None => s
      end
  | None => s
  end.

Definition run_callback (cb : Callback) : State → State :=
  match cb with
  | CbToggleRecording => toggleRecording
  | CbToggleWindow => toggleWindow
  end.

(** *** Application events *)

Definition app_quit : State → State := set_quitting true.

Definition whenReady (s : State) : State :=
  registerHotkeys (createTray (createMainWindow s)).

Definition on_activate (s : State) : State :=
  if Nat.eqb (length (windows s)) 0 then createMainWindow s else s.

Definition on_window_all_closed (s : State) : State :=
  if negb (String.eqb (platform env) "darwin") then app_quit s else s.

Definition on_will_quit : State → State := set_shortcuts ∅.

(** The window [id] has been closed: it leaves the open windows and its
    ['closed'] listener runs. *)
Definition on_closed (id : nat) (s : State) : State :=
  match find_window id s with
  | Some _ =>
      set_mainWindow None
        (set_windows
           (List.filter (fun w => negb (Nat.eqb (win_id w) id)) (windows s)) s)
  | None => s
  end.

(** *** IPC handlers *)

Definition get_server_config (s : State) : value :=
  VObj (<["host" := Store.get "server.host" (VStr "127.0.0.1") (store s)]>
       (<["port" := Store.get "server.port" (VNum 9876) (store s)]> ∅)).

Definition get_settings (s : State) : value :=
  Store.get "settings" (VObj ∅) (store s).

(** The payload ranges over JSON values, the values the store can hold. *)
Definition update_settings (settings : value) (s : State) : State :=
  set_store (Store.set "settings" settings (store s)) s.

(** [if (text)] skips the empty string, the one falsy string. *)
Definition transcript_for_paste (text : string) (s : State) : State :=
  if negb (String.eqb text "") then
    let s1 := set_clipboard text s in
    console_log ("Transcript copied to clipboard for paste: "
                 +:+ (String.substring 0 20 text +:+ "...")) s1
  else s.

(** *** The event loop *)

Inductive event :=
  | EvActivate
  | EvClosed (id : nat)
  | EvWindowAllClosed
  | EvWillQuit
  | EvShortcut (accel : string)
  | EvGetServerConfig
  | EvGetSettings
  | EvUpdateSettings (settings : value)
  | EvAppQuit
  | EvTranscriptForPaste (text : string).

(** One turn of the loop: the new state, and the reply when the event is a
    request ([ipcMain.handle]); one-way channels ([ipcMain.on]) and
    application events answer nothing. *)
Definition handle (e : event) (s : State) : State * option value :=
  match e with
  | EvActivate => (on_activate s, None)
  | EvClosed id => (on_closed id s, None)
  | EvWindowAllClosed => (on_window_all_closed s, None)
  | EvWillQuit => (on_will_quit s, None)
  | EvShortcut accel =>
      match shortcuts s !! accel with
      | Some cb => (run_callback cb s, None)
      | None => (s, None)
      end
  | EvGetServerConfig => (s, Some (get_server_config s))
  | EvGetSettings => (s, Some (get_settings s))
  | EvUpdateSettings settings => (update_settings settings s, None)
  | EvAppQuit => (app_quit s, None)
  | EvTranscriptForPaste text => (transcript_for_paste text s, None)
  end.

Definition step (e : event) (s : State) : State := fst (handle e s).

Definition run (tr : list event) (s : State) : State :=
  fold_left (fun s e => step e s) tr s.

(** The process at launch, over the persisted document and whatever text
    the clipboard holds. *)
Definition initial (doc : gmap string value) (clip : string) : State :=
  {| mainWindow := None; isRecording := false; store := doc;
     windows := []; nextWindowId := 0%nat; shortcuts := ∅;
     console := []; clipboard := clip; sent := []; quitting := false |}.

Definition boot (doc : gmap string value) (clip : string) : State :=
  whenReady (initial doc clip).

(** Does this turn call [toggleRecording]? *)
Definition calls_toggle (e : event) (s : State) : bool :=
  match e with
  | EvShortcut accel =>
      match shortcuts s !! accel with
      | Some CbToggleRecording => true
      | _ => false
      end
  | _ => false
  end.

Fixpoint toggleCalls (tr : list event) (s : State) : nat :=
  match tr with
  | [] => 0
  | e :: tr' =>
      ((if calls_toggle e s then 1 else 0) + toggleCalls tr' (step e s))%nat
  end.

(** Does this turn write the settings document? *)
Definition is_update (e : event) : bool :=
  match e with
  | EvUpdateSettings _ => true
  | _ => false
  end.

End Main.

(** ** At most one window

    The handle and the list of open windows agree: either both are empty,
    or the one open window is the one the handle refers to. *)
Definition single_window (s : State) : Prop :=
  match mainWindow s with
  | Some id => ∃ w, windows s = [w] ∧ win_id w = id
  | None => windows s = []
  end.

(** ** Sample environments

    A 1920x1080 work area with every accelerator free, and the same with one
    of the two accelerators held by another application. *)
Definition desktop : Env :=
  {| workAreaSize := (1920, 1080); dirname := "/opt/windy/desktop";
     platform := "linux"; claimed := ∅ |}.

Definition desktop_space_taken : Env :=
  {| workAreaSize := (1920, 1080); dirname := "/opt/windy/desktop";
     platform := "linux"; claimed := {[ accelRecord ]} |}.

Definition desktop_w_taken : Env :=
  {| workAreaSize := (1920, 1080); dirname := "/opt/windy/desktop";
     platform := "linux"; claimed := {[ accelWindow ]} |}.

(** The process after startup on a fresh installation. *)
Definition booted : State := boot desktop ∅ "".

(** The reply [{host, port}] of [get-server-config]. *)
Definition server_config (host port : value) : value :=
  VObj (<["host" := host]> (<["port" := port]> ∅)).

(** The same display on macOS. *)
Definition macbook : Env :=
  {| workAreaSize := (1920, 1080); dirname := "/opt/windy/desktop";
     platform := "darwin"; claimed := ∅ |}.

(** The window of [booted] once hidden. *)
Definition hidden_window : BrowserWindow :=
  {| win_id := 0; win_options := mainWindowOptions desktop;
     win_visible := false;
     win_file := Some [dirname desktop; "renderer"; "index.html"] |}.

(** ** Reading a trace

    What a sequence of events asks of the clipboard and of the settings
    document: the last non-empty transcript, the last settings payload. *)
Fixpoint last_transcript (tr : list event) : option string :=
  match tr with
  | [] => None
  | e :: tr' =>
      match last_transcript tr' with
      | Some t => Some t
      | None =>
          match e with
          | EvTranscriptForPaste text =>
              if String.eqb text "" then None else Some text
          | _ => None
          end
      end
  end.

Fixpoint last_update (tr : list event) : option value :=
  match tr with
  | [] => None
  | e :: tr' =>
      match last_update tr' with
      | Some v => Some v
      | None =>
          match e with
          | EvUpdateSettings settings => Some settings
          | _ => None
          end
      end
  end.

Definition is_closed (e : event) : bool :=
  match e with
  | EvClosed _ => true
  | _ => false
  end.

Definition is_app_quit (e : event) : bool :=
  match e with
  | EvAppQuit => true
  | _ => false
  end.

Definition is_window_all_closed (e : event) : bool :=
  match e with
  | EvWindowAllClosed => true
  | _ => false
  end.

(** The label sent on [state-change] for a flag. *)
Definition state_label (b : bool) : string :=
  if b then "listening" else "idle".

Definition toggle_message (w : nat) (b : bool) : Message :=
  {| msg_to := w; msg_channel := "toggle-recording"; msg_payload := VBool b |}.

Definition state_message (w : nat) (b : bool) : Message :=
  {| msg_to := w; msg_channel := "state-change";
     msg_payload := VStr (state_label b) |}.

(** An outbox made of notification pairs: the flag on [toggle-recording],
    then its label on [state-change], both to the same window. *)
Inductive paired : list Message → Prop :=
  | paired_nil : paired []
  | paired_snoc (ms : list Message) (w : nat) (b : bool) :
      paired ms → paired (ms ++ [toggle_message w b; state_message w b]).

(** Every open window was opened with the options of [createMainWindow]
    and has the renderer page loaded. *)
Definition main_windows_only (env : Env) (s : State) : Prop :=
  ∀ w, w ∈ windows s →
    win_options w = mainWindowOptions env
    ∧ win_file w = Some [dirname env; "renderer"; "index.html"].

(** * Properties *)

(** ** The store *)

Module StoreFacts.
Import Store.

Lemma split_dots_cons (key acc : string) :
  ∃ k rest, split_dots key acc = k :: rest.
Proof.
  revert acc. induction key as [|c key IH]; intros acc; simpl.
  - eauto.
  - destruct (Ascii.eqb c "."); eauto.
Qed.

(** Reading back the path that was just assigned. *)
Lemma getProperty_setProperty (path : list string) (x v : value) :
  getProperty path (setProperty path x v) = Some x.
Proof.
  revert v. induction path as [|k rest IH]; intros v; simpl.
  - reflexivity.
  - rewrite lookup_insert_eq. apply IH.
Qed.

(** An assignment below the property [k] is invisible below any other
    property of the same object. *)
Lemma getProperty_setProperty_ne (k k' : string) (p q : list string)
    (x : value) (m : gmap string value) :
  k ≠ k' →
  getProperty (k' :: q) (setProperty (k :: p) x (VObj m))
  = getProperty (k' :: q) (VObj m).
Proof.
  intros Hne. simpl. by rewrite lookup_insert_ne.
Qed.

Lemma set_spec (key : string) (x : value) (doc : gmap string value) :
  VObj (set key x doc) = setProperty (getPathSegments key) x (VObj doc).
Proof.
  unfold set, getPathSegments.
  destruct (split_dots_cons key EmptyString) as (k & rest & ->).
  reflexivity.
Qed.

Lemma lookup_set (key : string) (x : value) (doc : gmap string value) :
  lookup key (set key x doc) = Some x.
Proof.
  unfold lookup. rewrite set_spec. apply getProperty_setProperty.
Qed.

Lemma get_set (key : string) (x d : value) (doc : gmap string value) :
  get key d (set key x doc) = x.
Proof.
  unfold get. by rewrite lookup_set.
Qed.

(** Keys whose first segments differ do not interfere. *)
Lemma lookup_set_ne (key key' : string) (x : value)
    (doc : gmap string value) :
  head (getPathSegments key) ≠ head (getPathSegments key') →
  lookup key' (set key x doc) = lookup key' doc.
Proof.
  unfold lookup. rewrite set_spec. unfold getPathSegments.
  destruct (split_dots_cons key EmptyString) as (k & p & ->).
  destruct (split_dots_cons key' EmptyString) as (k' & q & ->).
  simpl. intros Hne. apply getProperty_setProperty_ne. congruence.
Qed.

Lemma get_set_ne (key key' : string) (x d : value)
    (doc : gmap string value) :
  head (getPathSegments key) ≠ head (getPathSegments key') →
  get key' d (set key x doc) = get key' d doc.
Proof.
  intros Hne. unfold get. by rewrite lookup_set_ne.
Qed.

Lemma lookup_empty (key : string) : lookup key ∅ = None.
Proof.
  unfold lookup, getPathSegments.
  destruct (split_dots_cons key EmptyString) as (k & p & ->).
  reflexivity.
Qed.

End StoreFacts.

(** ** Frame lemmas for the handlers *)

Section Frames.

Context (env : Env).

Ltac unfold_handlers :=
  unfold step, handle, on_activate, on_closed, on_window_all_closed,
    on_will_quit, app_quit, run_callback, toggleWindow, toggleRecording,
    update_settings, transcript_for_paste, createMainWindow, loadFile,
    set_visible, update_window, BrowserWindow_new in *.

Ltac split_handlers :=
  unfold_handlers; simpl in *; repeat case_match; simpl in *.

Lemma run_cons (e : event) (tr : list event) (s : State) :
  run env (e :: tr) s = run env tr (step env e s).
Proof. reflexivity. Qed.

Lemma run_app (tr1 tr2 : list event) (s : State) :
  run env (tr1 ++ tr2) s = run env tr2 (run env tr1 s).
Proof. unfold run. apply fold_left_app. Qed.

(** Only [update-settings] writes the store. *)
Lemma step_store (e : event) (s : State) :
  is_update e = false → store (step env e s) = store s.
Proof.
  intros He. destruct e; try discriminate He; split_handlers; reflexivity.
Qed.

Lemma run_store (tr : list event) (s : State) :
  existsb is_update tr = false → store (run env tr s) = store s.
Proof.
  revert s. induction tr as [|e tr IH]; intros s Htr.
  - reflexivity.
  - simpl in Htr. apply orb_false_iff in Htr as [He Htr].
    rewrite run_cons, IH by exact Htr. by apply step_store.
Qed.

(** The recording flag changes exactly in the turns that call
    [toggleRecording], and there it is negated. *)
Lemma toggleRecording_isRecording (s : State) :
  isRecording (toggleRecording s) = negb (isRecording s).
Proof. unfold toggleRecording. simpl. by destruct (mainWindow s). Qed.

Lemma step_isRecording (e : event) (s : State) :
  isRecording (step env e s)
  = if calls_toggle e s then negb (isRecording s) else isRecording s.
Proof.
  destruct e; split_handlers; reflexivity.
Qed.

Lemma run_isRecording (tr : list event) (s : State) :
  isRecording (run env tr s)
  = xorb (isRecording s) (Nat.odd (toggleCalls env tr s)).
Proof.
  revert s. induction tr as [|e tr IH]; intros s.
  - simpl. by destruct (isRecording s).
  - rewrite run_cons, IH, step_isRecording. simpl toggleCalls.
    destruct (calls_toggle e s).
    + change (1 + ?n)%nat with (S n).
      rewrite Nat.odd_succ, <- Nat.negb_odd.
      by destruct (isRecording s), (Nat.odd _).
    + reflexivity.
Qed.

Lemma iter_toggle_isRecording (n : nat) (s : State) :
  isRecording (Nat.iter n toggleRecording s)
  = xorb (isRecording s) (Nat.odd n).
Proof.
  induction n as [|n IH].
  - simpl. by destruct (isRecording s).
  - rewrite Nat.iter_succ, toggleRecording_isRecording, IH.
    rewrite Nat.odd_succ, <- Nat.negb_odd.
    by destruct (isRecording s), (Nat.odd n).
Qed.

(** Nothing but [toggleRecording] sends to the renderer. *)
Lemma step_sent (e : event) (s : State) :
  calls_toggle e s = false → sent (step env e s) = sent s.
Proof.
  destruct e; try (intros _; split_handlers; reflexivity).
  unfold step, handle, calls_toggle.
  destruct (shortcuts s !! accel) as [[]|]; simpl; try discriminate.
  - intros _. split_handlers; reflexivity.
  - reflexivity.
Qed.

Lemma run_sent (tr : list event) (s : State) :
  toggleCalls env tr s = 0%nat → sent (run env tr s) = sent s.
Proof.
  revert s. induction tr as [|e tr IH]; intros s Htr.
  - reflexivity.
  - simpl in Htr. destruct (calls_toggle e s) eqn:He; [lia|].
    rewrite run_cons, IH by exact Htr. by apply step_sent.
Qed.

(** Startup leaves the flag, the store and the outbox as they were. *)
Lemma registerHotkeys_frame (s : State) :
  isRecording (registerHotkeys env s) = isRecording s
  ∧ store (registerHotkeys env s) = store s
  ∧ sent (registerHotkeys env s) = sent s
  ∧ mainWindow (registerHotkeys env s) = mainWindow s
  ∧ windows (registerHotkeys env s) = windows s.
Proof.
  unfold registerHotkeys, globalShortcut_register.
  repeat case_match; simplify_eq; simpl; done.
Qed.

Lemma boot_isRecording (doc : gmap string value) (clip : string) :
  isRecording (boot env doc clip) = false.
Proof.
  unfold boot, whenReady.
  by rewrite (proj1 (registerHotkeys_frame _)).
Qed.

End Frames.

(** ** The single-window invariant holds in every reachable state *)

Section SingleWindow.

Context (env : Env).

Lemma createMainWindow_fresh (s : State) :
  windows s = [] → single_window (createMainWindow env s).
Proof.
  intros Hws. unfold single_window, createMainWindow, loadFile,
    update_window, BrowserWindow_new. simpl. rewrite Hws. simpl.
  rewrite Nat.eqb_refl. eauto.
Qed.

Lemma toggleRecording_windows (s : State) :
  mainWindow (toggleRecording s) = mainWindow s
  ∧ windows (toggleRecording s) = windows s.
Proof.
  unfold toggleRecording. simpl.
  destruct (mainWindow s) eqn:Hh; simpl; rewrite ?Hh; split; reflexivity.
Qed.

Lemma toggleWindow_single (s : State) :
  single_window s → single_window (toggleWindow s).
Proof.
  unfold single_window, toggleWindow, find_window.
  destruct (mainWindow s) as [id|] eqn:Hh; [|by rewrite Hh].
  intros (w & Hws & Hid). rewrite Hws. simpl.
  rewrite Hid, Nat.eqb_refl.
  destruct (win_visible w); unfold set_visible, update_window; simpl;
    rewrite Hh, Hws; simpl; rewrite Hid, Nat.eqb_refl; eauto.
Qed.

Lemma on_closed_single (id : nat) (s : State) :
  single_window s → single_window (on_closed id s).
Proof.
  unfold single_window, on_closed, find_window.
  destruct (mainWindow s) as [h|] eqn:Hh.
  - intros (w & Hws & Hid). rewrite Hws. simpl.
    destruct (win_id w =? id)%nat eqn:E; simpl.
    + reflexivity.
    + rewrite Hh, Hws. eauto.
  - intros Hws. rewrite Hws. simpl. by rewrite Hh.
Qed.

Lemma step_single (e : event) (s : State) :
  single_window s → single_window (step env e s).
Proof.
  intros Hs. destruct e; unfold step, handle; simpl; try exact Hs.
  - unfold on_activate.
    destruct (length (windows s) =? 0)%nat eqn:E; [|exact Hs].
    apply createMainWindow_fresh.
    destruct (windows s); [reflexivity | discriminate E].
  - by apply on_closed_single.
  - unfold on_window_all_closed. by destruct (negb _).
  - destruct (shortcuts s !! accel) as [[]|]; simpl; [| |exact Hs].
    + unfold single_window.
      destruct (toggleRecording_windows s) as [-> ->]. exact Hs.
    + by apply toggleWindow_single.
  - unfold transcript_for_paste. by destruct (negb _).
Qed.

Lemma boot_single (doc : gmap string value) (clip : string) :
  single_window (boot env doc clip).
Proof.
  unfold boot, whenReady, createTray, single_window.
  destruct (registerHotkeys_frame env
              (createMainWindow env (initial doc clip)))
    as (_ & _ & _ & -> & ->).
  by apply createMainWindow_fresh.
Qed.

Lemma run_single (tr : list event) (s : State) :
  single_window s → single_window (run env tr s).
Proof.
  revert s. induction tr as [|e tr IH]; intros s Hs; [exact Hs|].
  rewrite run_cons. by apply IH, step_single.
Qed.

End SingleWindow.

(** ** The recording state machine *)

(** C1: the process starts Idle, and from an Idle state the recording state
    after any number of [toggleRecording] calls is Listening when that
    number is odd and Idle when it is even; this holds for calls made back
    to back and for calls interleaved with any other events of the loop. *)
Theorem recording_alternates (env : Env) :
  (∀ doc clip, recordingState (boot env doc clip) = Idle)
  ∧ (∀ s, recordingState s = Idle →
       (∀ n, recordingState (Nat.iter n toggleRecording s)
             = if Nat.odd n then Listening else Idle)
       ∧ (∀ tr, recordingState (run env tr s)
                = if Nat.odd (toggleCalls env tr s) then Listening else Idle)).
Proof.
  split.
  - intros doc clip. unfold recordingState. by rewrite boot_isRecording.
  - intros s Hs. unfold recordingState in *.
    destruct (isRecording s) eqn:Hrec; [discriminate Hs|].
    split.
    + intros n. rewrite iter_toggle_isRecording, Hrec. simpl.
      by destruct (Nat.odd n).
    + intros tr. rewrite run_isRecording, Hrec. simpl.
      by destruct (Nat.odd _).
Qed.

Lemma recording_alternates_witness :
  recordingState (boot desktop ∅ "") = Idle
  ∧ recordingState (Nat.iter 3 toggleRecording (boot desktop ∅ "")) = Listening
  ∧ recordingState
      (run desktop [EvShortcut accelRecord; EvGetSettings;
                    EvShortcut accelWindow; EvShortcut accelRecord]
         (boot desktop ∅ "")) = Idle.
Proof.
  assert (H0 : recordingState (boot desktop ∅ "") = Idle) by reflexivity.
  destruct (proj2 (recording_alternates desktop) _ H0) as [Hn Htr].
  split; [exact H0|]. split.
  - exact (Hn 3%nat).
  - exact (Htr [EvShortcut accelRecord; EvGetSettings;
                EvShortcut accelWindow; EvShortcut accelRecord]).
Defined.

(** C2: [toggleRecording] always negates the flag.  With a live window it
    then sends exactly two messages to it, in this order: the new flag on
    [toggle-recording], and ["listening"] or ["idle"] on [state-change].
    With no live window nothing is sent, and the resulting state differs
    from the old one in the flag and the console line only, so nothing is
    held back for later: as long as no further toggle happens, no event of
    the loop sends anything. *)
Theorem toggle_flips_and_notifies (env : Env) (s : State) :
  let b := negb (isRecording s) in
  let flipped :=
    console_log ("Recording state: " +:+ bool_text b) (set_isRecording b s) in
  isRecording (toggleRecording s) = b
  ∧ match mainWindow s with
    | Some w =>
        sent (toggleRecording s)
        = (sent s ++
            [ {| msg_to := w; msg_channel := "toggle-recording";
                 msg_payload := VBool b |};
              {| msg_to := w; msg_channel := "state-change";
                 msg_payload := VStr (if b then "listening" else "idle") |} ])%list
    | None =>
        toggleRecording s = flipped
        ∧ sent (toggleRecording s) = sent s
        ∧ ∀ tr, toggleCalls env tr (toggleRecording s) = 0%nat →
                sent (run env tr (toggleRecording s)) = sent s
    end.
Proof.
  intros b flipped. split; [apply toggleRecording_isRecording|].
  unfold toggleRecording. simpl.
  destruct (mainWindow s) as [w|] eqn:Hh; simpl.
  - by rewrite <- app_assoc.
  - split; [reflexivity|]. split; [reflexivity|].
    intros tr Htr. by rewrite run_sent.
Qed.

Lemma toggle_flips_and_notifies_witness :
  sent (toggleRecording (boot desktop ∅ ""))
  = [ {| msg_to := 0; msg_channel := "toggle-recording";
         msg_payload := VBool true |};
      {| msg_to := 0; msg_channel := "state-change";
         msg_payload := VStr "listening" |} ]
  ∧ sent (run desktop [EvActivate; EvGetSettings]
            (toggleRecording (initial ∅ ""))) = [].
Proof.
  split.
  - exact (proj2 (toggle_flips_and_notifies desktop (boot desktop ∅ ""))).
  - apply (proj2 (proj2 (proj2
             (toggle_flips_and_notifies desktop (initial ∅ ""))))).
    reflexivity.
Defined.

(** ** The window manager *)

Lemma createMainWindow_handle (env : Env) (s : State) :
  mainWindow (createMainWindow env s) = Some (nextWindowId s)
  ∧ length (windows (createMainWindow env s)) = S (length (windows s)).
Proof.
  unfold createMainWindow, loadFile, update_window, BrowserWindow_new.
  simpl. split; [reflexivity|].
  rewrite length_map, length_app. simpl. lia.
Qed.

(** C3, as the spec states it, fails: with a window open, [createMainWindow]
    opens a second one and moves the handle to it. *)
Lemma createMainWindow_with_window_not_noop :
  mainWindow booted = Some 0%nat
  ∧ length (windows booted) = 1%nat
  ∧ mainWindow (createMainWindow desktop booted) = Some 1%nat
  ∧ length (windows (createMainWindow desktop booted)) = 2%nat
  ∧ createMainWindow desktop booted ≠ booted.
Proof.
  repeat split; try reflexivity.
  intros Heq. apply (f_equal mainWindow) in Heq. discriminate Heq.
Qed.

(** C3, amended: [createMainWindow] is unguarded, it always opens a new
    window and points the handle at it.  The guard sits in the [activate]
    handler, its only caller after startup: whenever a window is open the
    handler changes nothing, and in every reachable state a non-null handle
    means a window is open. *)
Theorem activate_noop_when_window_exists (env : Env) :
  (∀ s, mainWindow (createMainWindow env s) = Some (nextWindowId s)
        ∧ length (windows (createMainWindow env s)) = S (length (windows s)))
  ∧ (∀ s, windows s ≠ [] → on_activate env s = s)
  ∧ (∀ doc clip tr,
       mainWindow (run env tr (boot env doc clip)) ≠ None →
       step env EvActivate (run env tr (boot env doc clip))
       = run env tr (boot env doc clip)).
Proof.
  assert (Hguard : ∀ s, windows s ≠ [] → on_activate env s = s).
  { intros s Hws. unfold on_activate. by destruct (windows s). }
  split; [apply createMainWindow_handle|]. split; [exact Hguard|].
  intros doc clip tr Hlive. unfold step, handle. simpl. apply Hguard.
  pose proof (run_single env tr _ (boot_single env doc clip)) as Hinv.
  unfold single_window in Hinv.
  destruct (mainWindow (run env tr (boot env doc clip))); [|done].
  destruct Hinv as (w & -> & _). discriminate.
Qed.

Lemma activate_noop_when_window_exists_witness :
  step desktop EvActivate
    (run desktop [EvShortcut accelWindow; EvShortcut accelRecord] booted)
  = run desktop [EvShortcut accelWindow; EvShortcut accelRecord] booted.
Proof.
  apply (proj2 (proj2 (activate_noop_when_window_exists desktop))
           ∅ "" [EvShortcut accelWindow; EvShortcut accelRecord]).
  discriminate.
Defined.

(** C7: on a primary display whose work area is W by H, the window that
    [createMainWindow] opens, the one the handle then refers to, is
    requested at (W - 420, H - 620) with size 400 by 600. *)
Theorem window_placement (env : Env) (s : State) (W H : Z) :
  workAreaSize env = (W, H) →
  ∃ w, last (windows (createMainWindow env s)) = Some w
       ∧ mainWindow (createMainWindow env s) = Some (win_id w)
       ∧ (opt_x (win_options w), opt_y (win_options w)) = (W - 420, H - 620)
       ∧ (opt_width (win_options w), opt_height (win_options w)) = (400, 600).
Proof.
  intros Hsize.
  unfold createMainWindow, loadFile, update_window, BrowserWindow_new.
  simpl. rewrite map_app. simpl. rewrite Nat.eqb_refl, last_snoc.
  eexists. split; [reflexivity|]. simpl.
  unfold mainWindowOptions. rewrite Hsize. simpl. done.
Qed.

Lemma window_placement_witness :
  ∃ w, last (windows (createMainWindow desktop (initial ∅ ""))) = Some w
       ∧ mainWindow (createMainWindow desktop (initial ∅ "")) = Some (win_id w)
       ∧ (opt_x (win_options w), opt_y (win_options w)) = (1500, 460)
       ∧ (opt_width (win_options w), opt_height (win_options w)) = (400, 600).
Proof.
  exact (window_placement desktop (initial ∅ "") 1920 1080 eq_refl).
Defined.

(** ** The hotkey registrar *)

(** The console after [registerHotkeys] gains at most the one line about
    the first accelerator; the result of the second registration is not
    looked at. *)
Lemma registerHotkeys_console (env : Env) (s : State) :
  console (registerHotkeys env s)
  = (console s ++
      if fst (globalShortcut_register env accelRecord CbToggleRecording s)
      then [] else ["Registration of Ctrl+Shift+Space failed"])%list.
Proof.
  unfold registerHotkeys, globalShortcut_register.
  repeat case_match; simplify_eq; simpl; by rewrite ?app_nil_r.
Qed.

(** C4 does not hold of the code for the second binding.  When another
    application holds Ctrl+Shift+W the accelerator stays unbound, as the
    claim says, but nothing is logged; the same failure for Ctrl+Shift+Space
    is logged. *)
Theorem window_hotkey_failure_unreported :
  shortcuts (boot desktop_w_taken ∅ "") !! accelWindow = None
  ∧ shortcuts (boot desktop_w_taken ∅ "") !! accelRecord
    = Some CbToggleRecording
  ∧ console (boot desktop_w_taken ∅ "") = []
  ∧ shortcuts (boot desktop_space_taken ∅ "") !! accelRecord = None
  ∧ console (boot desktop_space_taken ∅ "")
    = ["Registration of Ctrl+Shift+Space failed"].
Proof. repeat split; vm_compute; reflexivity. Qed.

(** ** The clipboard channel *)

(** C8, as the spec states it, fails at the empty string: the handler
    ignores it and the clipboard keeps what it held. *)
Lemma empty_transcript_not_copied :
  clipboard (step desktop (EvTranscriptForPaste "") (boot desktop ∅ "old"))
  = "old"
  ∧ clipboard (step desktop (EvTranscriptForPaste "") (boot desktop ∅ "old"))
    ≠ "".
Proof. split; [reflexivity | discriminate]. Qed.

(** C8, amended: a non-empty text received on [transcript-for-paste] is
    placed on the clipboard, nothing is sent to the renderer and there is no
    reply; the empty string is ignored and leaves the whole state, the
    clipboard included, as it was. *)
Theorem transcript_placed_on_clipboard (env : Env) (text : string) (s : State) :
  snd (handle env (EvTranscriptForPaste text) s) = None
  ∧ (text ≠ "" →
       clipboard (step env (EvTranscriptForPaste text) s) = text
       ∧ sent (step env (EvTranscriptForPaste text) s) = sent s)
  ∧ (text = "" → step env (EvTranscriptForPaste text) s = s).
Proof.
  unfold step, handle, transcript_for_paste. simpl.
  split; [reflexivity|]. split.
  - intros Hne. apply String.eqb_neq in Hne. rewrite Hne. simpl. done.
  - intros ->. reflexivity.
Qed.

Lemma transcript_placed_on_clipboard_witness :
  clipboard (step desktop (EvTranscriptForPaste "hello world")
               (boot desktop ∅ "old")) = "hello world"
  ∧ step desktop (EvTranscriptForPaste "") (boot desktop ∅ "old")
    = boot desktop ∅ "old".
Proof.
  split.
  - apply (proj1 (proj2 (transcript_placed_on_clipboard desktop "hello world"
                           (boot desktop ∅ "old")))).
    discriminate.
  - apply (proj2 (proj2 (transcript_placed_on_clipboard desktop ""
                           (boot desktop ∅ "old")))).
    reflexivity.
Defined.

(** ** Settings and server configuration *)

(** C5: a [get-settings] request answers exactly the document of the last
    [update-settings], whatever other events came in between; and while
    nothing is persisted under [settings] and no [update-settings] arrives,
    it answers the empty mapping. *)
Theorem settings_roundtrip (env : Env) (s : State) (tr : list event) :
  existsb is_update tr = false →
  (∀ S, snd (handle env EvGetSettings
               (run env tr (step env (EvUpdateSettings S) s))) = Some S)
  ∧ (Store.lookup "settings" (store s) = None →
     snd (handle env EvGetSettings (run env tr s)) = Some (VObj ∅)).
Proof.
  intros Htr. split.
  - intros S. simpl. unfold get_settings. rewrite run_store by exact Htr.
    unfold step, handle, update_settings. simpl.
    by rewrite StoreFacts.get_set.
  - intros Hnone. simpl. unfold get_settings, Store.get.
    rewrite run_store by exact Htr. by rewrite Hnone.
Qed.

Lemma settings_roundtrip_witness :
  snd (handle desktop EvGetSettings
         (run desktop [EvShortcut accelRecord; EvGetServerConfig; EvActivate]
            (step desktop
               (EvUpdateSettings (VObj {[ "theme" := VStr "dark" ]}))
               booted)))
  = Some (VObj {[ "theme" := VStr "dark" ]})
  ∧ snd (handle desktop EvGetSettings
           (run desktop [EvShortcut accelRecord; EvGetServerConfig; EvActivate]
              booted))
    = Some (VObj ∅).
Proof.
  pose proof (settings_roundtrip desktop booted
                [EvShortcut accelRecord; EvGetServerConfig; EvActivate]
                eq_refl) as [Hset Hnone].
  split.
  - exact (Hset (VObj {[ "theme" := VStr "dark" ]})).
  - exact (Hnone eq_refl).
Defined.

(** C6: with neither [server.host] nor [server.port] persisted,
    [get-server-config] answers {host: "127.0.0.1", port: 9876}. *)
Theorem server_config_defaults (env : Env) (s : State) :
  Store.lookup "server.host" (store s) = None →
  Store.lookup "server.port" (store s) = None →
  snd (handle env EvGetServerConfig s)
  = Some (server_config (VStr "127.0.0.1") (VNum 9876)).
Proof.
  intros Hhost Hport. simpl.
  unfold get_server_config, server_config, Store.get.
  by rewrite Hhost, Hport.
Qed.

Lemma server_config_defaults_witness :
  snd (handle desktop EvGetServerConfig booted)
  = Some (server_config (VStr "127.0.0.1") (VNum 9876)).
Proof.
  exact (server_config_defaults desktop booted eq_refl eq_refl).
Defined.

(** C9: [update-settings] writes below the property [settings] only, so
    what is persisted under [server.host] and [server.port], and with it the
    answer of [get-server-config], is the same before and after. *)
Theorem update_settings_preserves_server_config
    (env : Env) (S : value) (s : State) :
  let s' := step env (EvUpdateSettings S) s in
  Store.lookup "server.host" (store s') = Store.lookup "server.host" (store s)
  ∧ Store.lookup "server.port" (store s') = Store.lookup "server.port" (store s)
  ∧ snd (handle env EvGetServerConfig s') = snd (handle env EvGetServerConfig s).
Proof.
  assert (Hhost : Store.lookup "server.host"
                    (Store.set "settings" S (store s))
                  = Store.lookup "server.host" (store s)).
  { apply StoreFacts.lookup_set_ne. discriminate. }
  assert (Hport : Store.lookup "server.port"
                    (Store.set "settings" S (store s))
                  = Store.lookup "server.port" (store s)).
  { apply StoreFacts.lookup_set_ne. discriminate. }
  simpl. unfold step, handle, update_settings. simpl.
  split; [exact Hhost|]. split; [exact Hport|].
  unfold get_server_config, Store.get. simpl store.
  by rewrite Hhost, Hport.
Qed.

(** C10: the two defaults of [get-server-config] apply field by field: a
    persisted host is answered with the default port when no port is
    persisted, and a persisted port with the default host when no host is
    persisted. *)
Theorem server_config_defaults_per_field (env : Env) (s : State) (v : value) :
  (Store.lookup "server.host" (store s) = Some v →
   Store.lookup "server.port" (store s) = None →
   snd (handle env EvGetServerConfig s) = Some (server_config v (VNum 9876)))
  ∧ (Store.lookup "server.host" (store s) = None →
     Store.lookup "server.port" (store s) = Some v →
     snd (handle env EvGetServerConfig s)
     = Some (server_config (VStr "127.0.0.1") v)).
Proof.
  split; intros Hhost Hport; simpl;
    unfold get_server_config, server_config, Store.get;
    by rewrite Hhost, Hport.
Qed.

Lemma server_config_defaults_per_field_witness :
  snd (handle desktop EvGetServerConfig
         (boot desktop {[ "server" := VObj {[ "host" := VStr "10.0.0.7" ]} ]} ""))
  = Some (server_config (VStr "10.0.0.7") (VNum 9876))
  ∧ snd (handle desktop EvGetServerConfig
           (boot desktop {[ "server" := VObj {[ "port" := VNum 8080 ]} ]} ""))
    = Some (server_config (VStr "127.0.0.1") (VNum 8080)).
Proof.
  split.
  - exact (proj1 (server_config_defaults_per_field desktop
                    (boot desktop
                       {[ "server" := VObj {[ "host" := VStr "10.0.0.7" ]} ]} "")
                    (VStr "10.0.0.7")) eq_refl eq_refl).
  - exact (proj2 (server_config_defaults_per_field desktop
                    (boot desktop
                       {[ "server" := VObj {[ "port" := VNum 8080 ]} ]} "")
                    (VNum 8080)) eq_refl eq_refl).
Defined.

(** * Further properties of the main process *)

(** ** Windows *)

Section Windows.

Context (env : Env).

Lemma createMainWindow_main_only (s : State) :
  main_windows_only env s → main_windows_only env (createMainWindow env s).
Proof.
  unfold main_windows_only, createMainWindow, loadFile, update_window,
    BrowserWindow_new. simpl. intros Hs w Hw.
  apply list_elem_of_In, in_map_iff in Hw as (w0 & <- & Hw0).
  apply in_app_iff in Hw0 as [Hold | [<- | []]].
  - apply list_elem_of_In, Hs in Hold as [Hopt Hfile].
    destruct (win_id w0 =? nextWindowId s)%nat; simpl; by rewrite ?Hopt, ?Hfile.
  - simpl. by rewrite Nat.eqb_refl.
Qed.

Lemma toggleWindow_main_only (s : State) :
  main_windows_only env s → main_windows_only env (toggleWindow s).
Proof.
  unfold main_windows_only, toggleWindow. intros Hs.
  destruct (mainWindow s) as [id|]; [|exact Hs].
  destruct (find_window id s) as [w0|]; [|exact Hs].
  destruct (win_visible w0); unfold set_visible, update_window; simpl;
    intros w Hw;
    apply list_elem_of_In, in_map_iff in Hw as (w1 & <- & Hw1);
    apply list_elem_of_In, Hs in Hw1;
    destruct (win_id w1 =? id)%nat; simpl; exact Hw1.
Qed.

Lemma on_closed_main_only (id : nat) (s : State) :
  main_windows_only env s → main_windows_only env (on_closed id s).
Proof.
  unfold main_windows_only, on_closed. intros Hs.
  destruct (find_window id s); [|exact Hs].
  simpl. intros w Hw. apply list_elem_of_In, filter_In in Hw as [Hw _].
  by apply Hs, list_elem_of_In.
Qed.

Lemma step_main_only (e : event) (s : State) :
  main_windows_only env s → main_windows_only env (step env e s).
Proof.
  intros Hs. destruct e; unfold step, handle; simpl; try exact Hs.
  - unfold on_activate. destruct (length (windows s) =? 0)%nat; [|exact Hs].
    by apply createMainWindow_main_only.
  - by apply on_closed_main_only.
  - unfold on_window_all_closed. by destruct (negb _).
  - destruct (shortcuts s !! accel) as [[]|]; simpl; [| |exact Hs].
    + unfold main_windows_only.
      by rewrite (proj2 (toggleRecording_windows s)).
    + by apply toggleWindow_main_only.
  - unfold transcript_for_paste. by destruct (negb _).
Qed.

Lemma boot_main_only (doc : gmap string value) (clip : string) :
  main_windows_only env (boot env doc clip).
Proof.
  unfold boot, whenReady, createTray.
  assert (H : main_windows_only env (createMainWindow env (initial doc clip))).
  { apply createMainWindow_main_only. intros w Hw. by apply elem_of_nil in Hw. }
  unfold main_windows_only in *.
  by rewrite (proj2 (proj2 (proj2 (proj2 (registerHotkeys_frame env _))))).
Qed.

Lemma run_main_only (tr : list event) (s : State) :
  main_windows_only env s → main_windows_only env (run env tr s).
Proof.
  revert s. induction tr as [|e tr IH]; intros s Hs; [exact Hs|].
  rewrite run_cons. by apply IH, step_main_only.
Qed.

(** X1: in every state the process reaches after startup there is at most
    one open window, the handle is null exactly when there is none, and a
    non-null handle refers to the one open window. *)
Theorem reachable_single_window
    (doc : gmap string value) (clip : string) (tr : list event) :
  let s := run env tr (boot env doc clip) in
  (length (windows s) ≤ 1)%nat
  ∧ (mainWindow s = None ↔ windows s = [])
  ∧ (∀ id, mainWindow s = Some id → ∃ w, windows s = [w] ∧ win_id w = id).
Proof.
  intros s.
  pose proof (run_single env tr _ (boot_single env doc clip)) as Hinv.
  fold s in Hinv. unfold single_window in Hinv.
  destruct (mainWindow s) as [id|].
  - destruct Hinv as (w & Hws & Hid). rewrite Hws. simpl.
    split; [lia|]. split; [split; discriminate|].
    intros id' [= <-]. eauto.
  - rewrite Hinv. simpl. split; [lia|]. split; [done|]. discriminate.
Qed.

(** X2: every window that is open in a reachable state was created with
    the options of [createMainWindow] (400 by 600 at the bottom right of the
    work area, frameless, transparent, always on top, node integration off,
    context isolation on, no background throttling) and shows the renderer
    page; no event changes the options of a window. *)
Theorem reachable_windows_keep_options
    (doc : gmap string value) (clip : string) (tr : list event)
    (w : BrowserWindow) :
  w ∈ windows (run env tr (boot env doc clip)) →
  win_options w = mainWindowOptions env
  ∧ win_file w = Some [dirname env; "renderer"; "index.html"]
  ∧ nodeIntegration (opt_webPreferences (win_options w)) = false
  ∧ contextIsolation (opt_webPreferences (win_options w)) = true
  ∧ backgroundThrottling (opt_webPreferences (win_options w)) = false
  ∧ preload (opt_webPreferences (win_options w)) = [dirname env; "preload.js"]
  ∧ (opt_width (win_options w), opt_height (win_options w)) = (400, 600)
  ∧ (opt_x (win_options w), opt_y (win_options w))
    = (fst (workAreaSize env) - 420, snd (workAreaSize env) - 620).
Proof.
  intros Hw.
  destruct (run_main_only tr _ (boot_main_only doc clip) w Hw) as [Hopt Hfile].
  rewrite Hopt. split; [reflexivity|]. split; [exact Hfile|].
  unfold mainWindowOptions. destruct (workAreaSize env). simpl. done.
Qed.

(** X3: startup opens exactly one window, visible, with the renderer page
    loaded, and points the handle at it; it leaves the recording flag off
    and does not touch the persisted document, the clipboard or the outbox,
    and requests no quit. *)
Theorem boot_state (doc : gmap string value) (clip : string) :
  ∃ w, windows (boot env doc clip) = [w]
       ∧ mainWindow (boot env doc clip) = Some (win_id w)
       ∧ win_visible w = true
       ∧ win_options w = mainWindowOptions env
       ∧ win_file w = Some [dirname env; "renderer"; "index.html"]
       ∧ isRecording (boot env doc clip) = false
       ∧ store (boot env doc clip) = doc
       ∧ clipboard (boot env doc clip) = clip
       ∧ sent (boot env doc clip) = []
       ∧ quitting (boot env doc clip) = false.
Proof.
  unfold boot, whenReady, createTray, registerHotkeys, globalShortcut_register.
  repeat case_match; simplify_eq; simpl; eexists; repeat split; reflexivity.
Qed.

End Windows.

(** ** Showing, hiding, closing and reopening the window *)

Section Visibility.

Context (env : Env).

(** X4: the Ctrl+Shift+W callback does nothing without a window; with the
    one window open it negates that window's visibility and changes nothing
    else, so that running it twice gives back the state it started from. *)
Theorem toggleWindow_flips_visibility (s : State) :
  single_window s →
  (mainWindow s = None → toggleWindow s = s)
  ∧ windows (toggleWindow s)
    = map (fun w => {| win_id := win_id w; win_options := win_options w;
                       win_visible := negb (win_visible w);
                       win_file := win_file w |}) (windows s)
  ∧ toggleWindow s = set_windows (windows (toggleWindow s)) s
  ∧ toggleWindow (toggleWindow s) = s.
Proof.
  unfold single_window, toggleWindow, find_window, set_visible, update_window.
  destruct s as [h rec doc ws next sc con clip out q]. simpl.
  destruct h as [id|].
  - intros ([wid opts vis file] & -> & Hid). simpl in Hid. subst wid. simpl.
    rewrite Nat.eqb_refl.
    split; [discriminate|].
    destruct vis; simpl; rewrite !Nat.eqb_refl; simpl; rewrite ?Nat.eqb_refl;
      repeat split; reflexivity.
  - intros ->. repeat split; reflexivity.
Qed.

(** X5: when the open window is closed the handle is cleared and no window
    is left, so a following toggle still negates the flag but sends nothing;
    the next [activate] opens a window again, visible, with the same options
    and page, and points the handle at it. *)
Theorem close_then_activate
    (doc : gmap string value) (clip : string) (tr : list event) (id : nat) :
  mainWindow (run env tr (boot env doc clip)) = Some id →
  let closed := step env (EvClosed id) (run env tr (boot env doc clip)) in
  mainWindow closed = None
  ∧ windows closed = []
  ∧ isRecording (toggleRecording closed) = negb (isRecording closed)
  ∧ sent (toggleRecording closed) = sent closed
  ∧ ∃ w, windows (step env EvActivate closed) = [w]
         ∧ mainWindow (step env EvActivate closed) = Some (win_id w)
         ∧ win_visible w = true
         ∧ win_options w = mainWindowOptions env
         ∧ win_file w = Some [dirname env; "renderer"; "index.html"].
Proof.
  intros Hh closed.
  pose proof (run_single env tr _ (boot_single env doc clip)) as Hinv.
  unfold single_window in Hinv. rewrite Hh in Hinv.
  destruct Hinv as (w & Hws & Hid).
  assert (Hnone : mainWindow closed = None ∧ windows closed = []).
  { unfold closed, step, handle, on_closed, find_window. simpl.
    rewrite Hws. simpl. rewrite Hid, Nat.eqb_refl. simpl.
    split; reflexivity. }
  destruct Hnone as [Hmw Hwins].
  split; [exact Hmw|]. split; [exact Hwins|].
  split; [apply toggleRecording_isRecording|].
  split. { unfold toggleRecording. simpl. by rewrite Hmw. }
  unfold step, handle, on_activate. simpl. rewrite Hwins. simpl.
  unfold createMainWindow, loadFile, update_window, BrowserWindow_new.
  simpl. rewrite Hwins. simpl. rewrite Nat.eqb_refl.
  eexists. repeat split; reflexivity.
Qed.

End Visibility.

(** ** Hotkeys over the life of the process *)

Section Hotkeys.

Context (env : Env).

Lemma accelRecord_ne_accelWindow : accelRecord ≠ accelWindow.
Proof. discriminate. Qed.

(** What [registerHotkeys] binds when nothing is bound yet. *)
Lemma registerHotkeys_shortcuts (s : State) :
  shortcuts s = ∅ →
  shortcuts (registerHotkeys env s)
  = match bool_decide (accelRecord ∈ claimed env),
          bool_decide (accelWindow ∈ claimed env) with
    | true, true => ∅
    | true, false => {[ accelWindow := CbToggleWindow ]}
    | false, true => {[ accelRecord := CbToggleRecording ]}
    | false, false =>
        <[accelWindow := CbToggleWindow]> {[ accelRecord := CbToggleRecording ]}
    end.
Proof.
  intros Hempty. unfold registerHotkeys, globalShortcut_register.
  rewrite Hempty, lookup_empty. simpl. rewrite orb_false_r.
  destruct (bool_decide (accelRecord ∈ claimed env)); simpl;
    rewrite ?Hempty, ?lookup_empty;
    rewrite ?(lookup_insert_ne _ accelRecord accelWindow)
      by apply accelRecord_ne_accelWindow;
    rewrite ?lookup_empty; simpl; rewrite orb_false_r;
    destruct (bool_decide (accelWindow ∈ claimed env)); simpl;
    rewrite ?Hempty; reflexivity.
Qed.

Lemma registerHotkeys_lookup (s : State) (a : string) (cb : Callback) :
  shortcuts s = ∅ →
  shortcuts (registerHotkeys env s) !! a = Some cb →
  (a ∉ claimed env)
  ∧ ((a = accelRecord ∧ cb = CbToggleRecording)
     ∨ (a = accelWindow ∧ cb = CbToggleWindow)).
Proof.
  intros Hempty. rewrite registerHotkeys_shortcuts by exact Hempty.
  destruct (bool_decide (accelRecord ∈ claimed env)) eqn:Hrec;
    destruct (bool_decide (accelWindow ∈ claimed env)) eqn:Hwin;
    try apply bool_decide_eq_false_1 in Hrec;
    try apply bool_decide_eq_false_1 in Hwin.
  - by rewrite lookup_empty.
  - intros [<- <-]%lookup_singleton_Some. auto.
  - intros [<- <-]%lookup_singleton_Some. auto.
  - intros [[<- <-] | [_ [<- <-]%lookup_singleton_Some]]%lookup_insert_Some;
      auto.
Qed.

Lemma step_shortcuts (e : event) (s : State) :
  shortcuts (step env e s)
  = match e with EvWillQuit => ∅ | _ => shortcuts s end.
Proof.
  destruct e;
    unfold step, handle, on_activate, on_closed, on_window_all_closed,
      on_will_quit, app_quit, run_callback, toggleWindow, toggleRecording,
      update_settings, transcript_for_paste, createMainWindow, loadFile,
      set_visible, update_window, BrowserWindow_new;
    simpl; repeat case_match; reflexivity.
Qed.

Lemma run_shortcuts (tr : list event) (s : State) :
  shortcuts (run env tr s) = shortcuts s ∨ shortcuts (run env tr s) = ∅.
Proof.
  revert s. induction tr as [|e tr IH]; intros s; [by left|].
  rewrite run_cons. destruct (IH (step env e s)) as [-> | ->]; [|by right].
  rewrite step_shortcuts. destruct e; by (left + right).
Qed.

Lemma unbound_shortcut_noop (a : string) (s : State) :
  shortcuts s !! a = None → step env (EvShortcut a) s = s.
Proof. intros Hnone. unfold step, handle. by rewrite Hnone. Qed.

Lemma run_unbound (tr : list event) (s : State) :
  shortcuts s = ∅ →
  shortcuts (run env tr s) = ∅ ∧ toggleCalls env tr s = 0%nat.
Proof.
  revert s. induction tr as [|e tr IH]; intros s Hs; [done|].
  assert (Hstep : shortcuts (step env e s) = ∅).
  { rewrite step_shortcuts. by destruct e. }
  rewrite run_cons. destruct (IH _ Hstep) as [Hsc Hcalls].
  split; [exact Hsc|]. simpl toggleCalls. rewrite Hcalls.
  destruct e; simpl; try reflexivity. by rewrite Hs, lookup_empty.
Qed.

(** X6: at startup the two registrations are independent: each default
    accelerator is bound to its own callback exactly when no other
    application holds it, whatever happened to the other one, and no other
    accelerator is bound. *)
Theorem registerHotkeys_bindings (s : State) :
  shortcuts s = ∅ →
  (shortcuts (registerHotkeys env s) !! accelRecord
   = if bool_decide (accelRecord ∈ claimed env)
     then None else Some CbToggleRecording)
  ∧ (shortcuts (registerHotkeys env s) !! accelWindow
     = if bool_decide (accelWindow ∈ claimed env)
       then None else Some CbToggleWindow)
  ∧ (∀ a, a ≠ accelRecord → a ≠ accelWindow →
          shortcuts (registerHotkeys env s) !! a = None).
Proof.
  intros Hempty. pose proof accelRecord_ne_accelWindow as Hne.
  rewrite registerHotkeys_shortcuts by exact Hempty.
  destruct (bool_decide (accelRecord ∈ claimed env));
    destruct (bool_decide (accelWindow ∈ claimed env));
    repeat split; try (intros a Ha1 Ha2);
    rewrite ?lookup_insert_eq, ?lookup_insert_ne by done;
    rewrite ?lookup_singleton_eq, ?lookup_singleton_ne by done;
    rewrite ?lookup_empty; reflexivity.
Qed.

(** X7: in every reachable state a bound accelerator is one of the two
    defaults, is bound to its own callback and is not held by another
    application; a shortcut event for any other accelerator changes
    nothing. *)
Theorem reachable_bindings
    (doc : gmap string value) (clip : string) (tr : list event) (a : string) :
  let s := run env tr (boot env doc clip) in
  (∀ cb, shortcuts s !! a = Some cb →
     (a ∉ claimed env)
     ∧ ((a = accelRecord ∧ cb = CbToggleRecording)
        ∨ (a = accelWindow ∧ cb = CbToggleWindow)))
  ∧ (a ≠ accelRecord → a ≠ accelWindow → step env (EvShortcut a) s = s).
Proof.
  intros s.
  assert (Hs : ∀ cb, shortcuts s !! a = Some cb →
            (a ∉ claimed env)
            ∧ ((a = accelRecord ∧ cb = CbToggleRecording)
               ∨ (a = accelWindow ∧ cb = CbToggleWindow))).
  { intros cb. unfold s.
    destruct (run_shortcuts tr (boot env doc clip)) as [-> | ->].
    - unfold boot, whenReady, createTray.
      by apply registerHotkeys_lookup.
    - by rewrite lookup_empty. }
  split; [exact Hs|].
  intros Ha1 Ha2. apply unbound_shortcut_noop.
  destruct (shortcuts s !! a) as [cb|] eqn:Hcb; [|reflexivity].
  destruct (Hs cb eq_refl) as [_ [[? _] | [? _]]]; contradiction.
Qed.

(** X8: [will-quit] releases every accelerator, and nothing binds one
    again: from then on no shortcut event has any effect, the recording
    flag keeps its value and nothing more is sent to the renderer. *)
Theorem will_quit_silences_hotkeys (s : State) (tr : list event) :
  let s0 := step env EvWillQuit s in
  shortcuts (run env tr s0) = ∅
  ∧ isRecording (run env tr s0) = isRecording s
  ∧ sent (run env tr s0) = sent s
  ∧ ∀ a, step env (EvShortcut a) (run env tr s0) = run env tr s0.
Proof.
  intros s0.
  assert (H0 : shortcuts s0 = ∅) by reflexivity.
  destruct (run_unbound tr s0 H0) as [Hsc Hcalls].
  split; [exact Hsc|]. split; [|split].
  - rewrite run_isRecording, Hcalls. simpl.
    by destruct (isRecording s).
  - by rewrite run_sent.
  - intros a. apply unbound_shortcut_noop. by rewrite Hsc, lookup_empty.
Qed.

End Hotkeys.

(** ** Quitting *)

Section Quit.

Context (env : Env).

Lemma step_quitting (e : event) (s : State) :
  quitting (step env e s)
  = quitting s
    || is_app_quit e
    || (is_window_all_closed e && negb (String.eqb (platform env) "darwin")).
Proof.
  destruct e;
    unfold step, handle, on_activate, on_closed, on_window_all_closed,
      on_will_quit, app_quit, run_callback, toggleWindow, toggleRecording,
      update_settings, transcript_for_paste, createMainWindow, loadFile,
      set_visible, update_window, BrowserWindow_new;
    simpl; repeat case_match; simpl; by rewrite ?orb_false_r, ?orb_true_r.
Qed.

(** X9: a quit is requested by [app-quit], and by [window-all-closed]
    except on macOS, and by nothing else; once requested it stays
    requested. *)
Theorem quit_requests (s : State) (tr : list event) :
  (quitting s = true → quitting (run env tr s) = true)
  ∧ (existsb is_app_quit tr = false →
     platform env = "darwin" ∨ existsb is_window_all_closed tr = false →
     quitting (run env tr s) = quitting s)
  ∧ quitting (step env EvAppQuit s) = true
  ∧ (platform env ≠ "darwin" → quitting (step env EvWindowAllClosed s) = true).
Proof.
  repeat split.
  - revert s. induction tr as [|e tr IH]; intros s Hq; [exact Hq|].
    rewrite run_cons. apply IH. by rewrite step_quitting, Hq.
  - revert s. induction tr as [|e tr IH]; intros s Hquit Hwin; [reflexivity|].
    simpl in Hquit. apply orb_false_iff in Hquit as [He Hquit].
    rewrite run_cons, IH, step_quitting, He; [| exact Hquit |].
    + destruct Hwin as [Hmac | Hwin].
      * rewrite Hmac. simpl. by rewrite andb_false_r, !orb_false_r.
      * simpl in Hwin. apply orb_false_iff in Hwin as [-> _].
        simpl. by rewrite !orb_false_r.
    + destruct Hwin as [Hmac | Hwin]; [by left|].
      simpl in Hwin. apply orb_false_iff in Hwin as [_ Hwin]. by right.
  - intros Hplat. rewrite step_quitting. simpl.
    apply String.eqb_neq in Hplat. rewrite Hplat. simpl. apply orb_true_r.
Qed.

End Quit.

(** ** The clipboard and its log line *)

Section Clipboard.

Context (env : Env).

Lemma step_clipboard (e : event) (s : State) :
  clipboard (step env e s)
  = match e with
    | EvTranscriptForPaste text =>
        if String.eqb text "" then clipboard s else text
    | _ => clipboard s
    end.
Proof.
  destruct e;
    unfold step, handle, on_activate, on_closed, on_window_all_closed,
      on_will_quit, app_quit, run_callback, toggleWindow, toggleRecording,
      update_settings, transcript_for_paste, createMainWindow, loadFile,
      set_visible, update_window, BrowserWindow_new;
    simpl; repeat case_match; simpl in *; try reflexivity; try discriminate.
Qed.

Lemma substring_0_length (n : nat) (t : string) :
  String.length (String.substring 0 n t) = Nat.min n (String.length t).
Proof.
  revert t. induction n as [|n IH]; intros [|c t]; simpl; try reflexivity.
  by rewrite IH.
Qed.

Lemma substring_0_prefix (n : nat) (t : string) :
  String.prefix (String.substring 0 n t) t = true.
Proof.
  revert t. induction n as [|n IH]; intros [|c t]; simpl; try reflexivity.
  destruct (ascii_dec c c) as [_|Hne]; [apply IH | by destruct Hne].
Qed.

Lemma substring_0_all (n : nat) (t : string) :
  (String.length t ≤ n)%nat → String.substring 0 n t = t.
Proof.
  revert t. induction n as [|n IH]; intros [|c t] Hlen; simpl in *;
    try reflexivity; try lia.
  f_equal. apply IH. lia.
Qed.

(** X10: the clipboard always holds the last non-empty transcript received
    so far, or what it held at the start when there was none; no other
    event writes it. *)
Theorem clipboard_holds_last_transcript (s : State) (tr : list event) :
  clipboard (run env tr s) = default (clipboard s) (last_transcript tr).
Proof.
  revert s. induction tr as [|e tr IH]; intros s; [reflexivity|].
  rewrite run_cons, IH, step_clipboard. simpl.
  destruct (last_transcript tr) as [t|]; [reflexivity|].
  destruct e; simpl; try reflexivity.
  by destruct (String.eqb text "").
Qed.

(** X11: for a non-empty transcript the handler writes one console line,
    which shows a prefix of the text of at most 20 characters followed by
    three dots, while the clipboard receives the text whole; a text of at
    most 20 characters is shown in full.  (A character of the model's
    strings stands for a code unit of the JavaScript string.) *)
Theorem transcript_log_truncated (text : string) (s : State) :
  text ≠ "" →
  ∃ shown,
    console (step env (EvTranscriptForPaste text) s)
    = (console s ++
        ["Transcript copied to clipboard for paste: " +:+ (shown +:+ "...")])%list
    ∧ String.prefix shown text = true
    ∧ String.length shown = Nat.min 20 (String.length text)
    ∧ ((String.length text ≤ 20)%nat → shown = text)
    ∧ clipboard (step env (EvTranscriptForPaste text) s) = text.
Proof.
  intros Hne. exists (String.substring 0 20 text).
  unfold step, handle, transcript_for_paste. simpl.
  apply String.eqb_neq in Hne. rewrite Hne. simpl.
  split; [reflexivity|]. split; [apply substring_0_prefix|].
  split; [apply substring_0_length|]. split; [|reflexivity].
  intros Hlen. by apply substring_0_all.
Qed.

End Clipboard.

(** ** The persisted document over a run *)

Section Persistence.

Context (env : Env).

Lemma step_get_settings (e : event) (s : State) :
  get_settings (step env e s)
  = match e with
    | EvUpdateSettings settings => settings
    | _ => get_settings s
    end.
Proof.
  unfold get_settings.
  destruct e; try (by rewrite step_store).
  unfold step, handle, update_settings. simpl.
  apply StoreFacts.get_set.
Qed.

Lemma step_server_lookup (e : event) (s : State) :
  Store.lookup "server.host" (store (step env e s))
  = Store.lookup "server.host" (store s)
  ∧ Store.lookup "server.port" (store (step env e s))
    = Store.lookup "server.port" (store s).
Proof.
  destruct e; try (by rewrite step_store).
  unfold step, handle, update_settings. simpl.
  split; by apply StoreFacts.lookup_set_ne.
Qed.

(** X12: [get-settings] always answers the payload of the most recent
    [update-settings], or what the document held at the start when there
    was none; an update replaces the document whole, so two updates in a
    row leave the state the second alone would. *)
Theorem settings_last_write_wins (s : State) (tr : list event) :
  snd (handle env EvGetSettings (run env tr s))
  = Some (default (get_settings s) (last_update tr))
  ∧ ∀ S1 S2, step env (EvUpdateSettings S2) (step env (EvUpdateSettings S1) s)
             = step env (EvUpdateSettings S2) s.
Proof.
  split.
  - simpl. f_equal. revert s.
    induction tr as [|e tr IH]; intros s; [reflexivity|].
    rewrite run_cons, IH, step_get_settings. simpl.
    destruct (last_update tr); [reflexivity|]. by destruct e.
  - intros S1 S2. unfold step, handle, update_settings, set_store. simpl.
    f_equal. change (Store.set "settings" ?x ?d) with (<["settings" := x]> d).
    apply insert_insert_eq.
Qed.

(** X13: no event writes the server configuration: what is persisted under
    [server.host] and [server.port], and the answer of [get-server-config],
    stay the same over any sequence of events. *)
Theorem server_config_constant (s : State) (tr : list event) :
  Store.lookup "server.host" (store (run env tr s))
  = Store.lookup "server.host" (store s)
  ∧ Store.lookup "server.port" (store (run env tr s))
    = Store.lookup "server.port" (store s)
  ∧ snd (handle env EvGetServerConfig (run env tr s))
    = snd (handle env EvGetServerConfig s).
Proof.
  assert (H : Store.lookup "server.host" (store (run env tr s))
              = Store.lookup "server.host" (store s)
              ∧ Store.lookup "server.port" (store (run env tr s))
                = Store.lookup "server.port" (store s)).
  { revert s. induction tr as [|e tr IH]; intros s; [done|].
    rewrite run_cons. destruct (IH (step env e s)) as [-> ->].
    apply step_server_lookup. }
  destruct H as [Hhost Hport]. split; [exact Hhost|]. split; [exact Hport|].
  simpl. unfold get_server_config, Store.get. by rewrite Hhost, Hport.
Qed.

End Persistence.

(** ** What the renderer is told *)

Section Notifications.

Context (env : Env).

Lemma toggleRecording_sent (s : State) :
  sent (toggleRecording s)
  = match mainWindow s with
    | Some w =>
        (sent s ++ [toggle_message w (negb (isRecording s));
                    state_message w (negb (isRecording s))])%list
    | None => sent s
    end.
Proof.
  unfold toggleRecording. simpl.
  destruct (mainWindow s); simpl; [|reflexivity].
  by rewrite <- app_assoc.
Qed.

Lemma step_sent_toggle (e : event) (s : State) :
  calls_toggle e s = true → step env e s = toggleRecording s.
Proof.
  destruct e; try discriminate. unfold step, handle, calls_toggle.
  destruct (shortcuts s !! accel) as [[]|]; try discriminate. reflexivity.
Qed.

Lemma step_paired (e : event) (s : State) :
  paired (sent s) → paired (sent (step env e s)).
Proof.
  intros Hp. destruct (calls_toggle e s) eqn:He.
  - rewrite step_sent_toggle, toggleRecording_sent by exact He.
    destruct (mainWindow s); [by constructor | exact Hp].
  - by rewrite step_sent.
Qed.

(** X14: whatever happens, the messages sent to the renderer come in
    pairs: the flag on [toggle-recording] immediately followed, to the same
    window, by [state-change] with the label of that same flag; nothing else
    is ever sent. *)
Theorem notifications_paired
    (doc : gmap string value) (clip : string) (tr : list event) :
  paired (sent (run env tr (boot env doc clip))).
Proof.
  assert (Hrun : ∀ s, paired (sent s) → paired (sent (run env tr s))).
  { induction tr as [|e tr IH]; intros s Hs; [exact Hs|].
    rewrite run_cons. by apply IH, step_paired. }
  apply Hrun. unfold boot, whenReady, createTray.
  rewrite (proj1 (proj2 (proj2 (registerHotkeys_frame env _)))).
  simpl. constructor.
Qed.

(** While the window opened at startup stays open. *)
Lemma step_live (e : event) (s : State) (w : nat) :
  is_closed e = false → single_window s → mainWindow s = Some w →
  mainWindow (step env e s) = Some w.
Proof.
  intros He Hs Hw. destruct e; try discriminate He;
    unfold step, handle; simpl; try exact Hw.
  - unfold on_activate. unfold single_window in Hs. rewrite Hw in Hs.
    destruct Hs as (w0 & -> & _). exact Hw.
  - unfold on_window_all_closed. by destruct (negb _).
  - destruct (shortcuts s !! accel) as [[]|]; simpl; [| |exact Hw].
    + by rewrite (proj1 (toggleRecording_windows s)).
    + unfold toggleWindow. rewrite Hw.
      destruct (find_window w s) as [w0|]; [|exact Hw].
      by destruct (win_visible w0).
  - unfold transcript_for_paste. by destruct (negb _).
Qed.

Lemma step_last_state (e : event) (s : State) (w : nat) :
  mainWindow s = Some w →
  (sent s = [] ∧ isRecording s = false
   ∨ last (sent s) = Some (state_message w (isRecording s))) →
  (sent (step env e s) = [] ∧ isRecording (step env e s) = false
   ∨ last (sent (step env e s))
     = Some (state_message w (isRecording (step env e s)))).
Proof.
  intros Hw Hs. destruct (calls_toggle e s) eqn:He.
  - right. rewrite step_sent_toggle by exact He.
    rewrite toggleRecording_sent, toggleRecording_isRecording, Hw.
    by rewrite last_app.
  - by rewrite step_sent, step_isRecording, He.
Qed.

Lemma step_sent_length (e : event) (s : State) (w : nat) :
  mainWindow s = Some w →
  length (sent (step env e s))
  = (length (sent s) + 2 * (if calls_toggle e s then 1 else 0))%nat.
Proof.
  intros Hw. destruct (calls_toggle e s) eqn:He.
  - rewrite step_sent_toggle by exact He.
    rewrite toggleRecording_sent, Hw, length_app. reflexivity.
  - rewrite step_sent by exact He. lia.
Qed.

Lemma boot_handle (doc : gmap string value) (clip : string) :
  mainWindow (boot env doc clip) = Some 0%nat
  ∧ sent (boot env doc clip) = [].
Proof.
  unfold boot, whenReady, createTray.
  destruct (registerHotkeys_frame env
              (createMainWindow env (initial doc clip)))
    as (_ & _ & -> & -> & _).
  split; reflexivity.
Qed.

(** X15: as long as the window opened at startup is not closed, every
    toggle is delivered: two messages per toggle, and once anything has been
    sent the last message is the [state-change] that carries the label of
    the current recording state. *)
Theorem renderer_in_step_while_open
    (doc : gmap string value) (clip : string) (tr : list event) :
  existsb is_closed tr = false →
  let s0 := boot env doc clip in
  let s := run env tr s0 in
  mainWindow s = mainWindow s0
  ∧ length (sent s) = (2 * toggleCalls env tr s0)%nat
  ∧ (sent s ≠ [] →
     ∃ w, mainWindow s = Some w
          ∧ last (sent s) = Some (state_message w (isRecording s))).
Proof.
  intros Htr s0 s.
  destruct (boot_handle doc clip) as [Hh Hsent].
  pose proof (boot_isRecording env doc clip) as Hrec.
  fold s0 in Hh, Hrec, Hsent.
  set (w0 := 0%nat) in Hh.
  assert (Hgen : ∀ tr s1, existsb is_closed tr = false →
            single_window s1 → mainWindow s1 = Some w0 →
            (sent s1 = [] ∧ isRecording s1 = false
             ∨ last (sent s1) = Some (state_message w0 (isRecording s1))) →
            mainWindow (run env tr s1) = Some w0
            ∧ length (sent (run env tr s1))
              = (length (sent s1) + 2 * toggleCalls env tr s1)%nat
            ∧ (sent (run env tr s1) = [] ∧ isRecording (run env tr s1) = false
               ∨ last (sent (run env tr s1))
                 = Some (state_message w0 (isRecording (run env tr s1))))).
  { clear. induction tr as [|e tr IH]; intros s1 Htr Hs1 Hw Hlast.
    - simpl. split; [exact Hw|]. split; [lia | exact Hlast].
    - simpl in Htr. apply orb_false_iff in Htr as [He Htr].
      rewrite run_cons.
      destruct (IH (step env e s1) Htr) as (Hm & Hlen & Hl).
      + by apply step_single.
      + by apply step_live.
      + by apply step_last_state.
      + split; [exact Hm|]. split; [|exact Hl].
        rewrite Hlen, (step_sent_length e s1 w0) by exact Hw.
        simpl toggleCalls. lia. }
  destruct (Hgen tr s0 Htr (boot_single env doc clip) Hh (or_introl (conj Hsent Hrec)))
    as (Hm & Hlen & Hl).
  fold s in Hm, Hlen, Hl. rewrite Hsent in Hlen. simpl in Hlen.
  split; [by rewrite Hm, Hh|]. split; [exact Hlen|].
  intros Hne. exists w0. split; [exact Hm|].
  destruct Hl as [[Hnil _] | Hl]; [contradiction | exact Hl].
Qed.

End Notifications.

(** ** Worked instances *)

Lemma reachable_single_window_witness :
  ∃ w, windows (run desktop [EvShortcut accelWindow; EvActivate] booted) = [w]
       ∧ win_id w = 0%nat.
Proof.
  exact (proj2 (proj2 (reachable_single_window desktop ∅ ""
                         [EvShortcut accelWindow; EvActivate]))
           0%nat eq_refl).
Defined.

Lemma reachable_windows_keep_options_witness :
  hidden_window ∈ windows (run desktop [EvShortcut accelWindow] booted)
  ∧ (opt_x (win_options hidden_window), opt_y (win_options hidden_window))
    = (1500, 460).
Proof.
  assert (Hw : hidden_window
               ∈ windows (run desktop [EvShortcut accelWindow] booted)).
  { vm_compute. left. }
  split; [exact Hw|].
  destruct (reachable_windows_keep_options desktop ∅ ""
              [EvShortcut accelWindow] hidden_window Hw)
    as (_ & _ & _ & _ & _ & _ & _ & Hpos).
  exact Hpos.
Defined.

Lemma toggleWindow_flips_visibility_witness :
  toggleWindow (toggleWindow booted) = booted
  ∧ windows (toggleWindow booted) = [hidden_window].
Proof.
  assert (Hs : single_window booted).
  { hnf. eexists. split; reflexivity. }
  destruct (toggleWindow_flips_visibility booted Hs) as (_ & Hws & _ & Htwice).
  split; [exact Htwice | exact Hws].
Defined.

Lemma close_then_activate_witness :
  mainWindow (step desktop (EvClosed 0)
                (run desktop [EvShortcut accelRecord] booted)) = None
  ∧ sent (toggleRecording
            (step desktop (EvClosed 0)
               (run desktop [EvShortcut accelRecord] booted)))
    = sent (step desktop (EvClosed 0)
              (run desktop [EvShortcut accelRecord] booted)).
Proof.
  destruct (close_then_activate desktop ∅ "" [EvShortcut accelRecord] 0%nat
              eq_refl) as (Hnone & _ & _ & Hsent & _).
  split; [exact Hnone | exact Hsent].
Defined.

Lemma registerHotkeys_bindings_witness :
  shortcuts (registerHotkeys desktop_w_taken (initial ∅ "")) !! accelRecord
  = Some CbToggleRecording
  ∧ shortcuts (registerHotkeys desktop_w_taken (initial ∅ "")) !! accelWindow
    = None.
Proof.
  destruct (registerHotkeys_bindings desktop_w_taken (initial ∅ "") eq_refl)
    as (Hrec & Hwin & _).
  split; [exact Hrec | exact Hwin].
Defined.

Lemma reachable_bindings_witness :
  step desktop (EvShortcut "CommandOrControl+Shift+V")
    (run desktop [EvShortcut accelRecord] booted)
  = run desktop [EvShortcut accelRecord] booted.
Proof.
  apply (proj2 (reachable_bindings desktop ∅ "" [EvShortcut accelRecord]
                  "CommandOrControl+Shift+V")); discriminate.
Defined.

Lemma quit_requests_witness :
  quitting (run macbook [EvClosed 0; EvWindowAllClosed; EvActivate]
              (boot macbook ∅ ""))
  = quitting (boot macbook ∅ "")
  ∧ quitting (step desktop EvWindowAllClosed booted) = true.
Proof.
  split.
  - apply (proj1 (proj2 (quit_requests macbook (boot macbook ∅ "")
                           [EvClosed 0; EvWindowAllClosed; EvActivate]))).
    + reflexivity.
    + left. reflexivity.
  - apply (proj2 (proj2 (proj2 (quit_requests desktop booted [])))).
    discriminate.
Defined.

Lemma transcript_log_truncated_witness :
  ∃ shown,
    console (step desktop
               (EvTranscriptForPaste "the quick brown fox jumps over the lazy dog")
               booted)
    = (console booted ++
        ["Transcript copied to clipboard for paste: " +:+ (shown +:+ "...")])%list
    ∧ String.prefix shown "the quick brown fox jumps over the lazy dog" = true
    ∧ String.length shown
      = Nat.min 20 (String.length "the quick brown fox jumps over the lazy dog")
    ∧ ((String.length "the quick brown fox jumps over the lazy dog" ≤ 20)%nat →
       shown = "the quick brown fox jumps over the lazy dog")
    ∧ clipboard (step desktop
                   (EvTranscriptForPaste
                      "the quick brown fox jumps over the lazy dog")
                   booted)
      = "the quick brown fox jumps over the lazy dog".
Proof.
  apply (transcript_log_truncated desktop
           "the quick brown fox jumps over the lazy dog" booted).
  discriminate.
Defined.

Lemma renderer_in_step_while_open_witness :
  length (sent (run desktop
                  [EvShortcut accelRecord; EvShortcut accelWindow;
                   EvShortcut accelRecord; EvShortcut accelRecord] booted))
  = 6%nat
  ∧ ∃ w, mainWindow (run desktop
                       [EvShortcut accelRecord; EvShortcut accelWindow;
                        EvShortcut accelRecord; EvShortcut accelRecord] booted)
         = Some w
         ∧ last (sent (run desktop
                         [EvShortcut accelRecord; EvShortcut accelWindow;
                          EvShortcut accelRecord; EvShortcut accelRecord]
                         booted))
           = Some (state_message w true).
Proof.
  destruct (renderer_in_step_while_open desktop ∅ ""
              [EvShortcut accelRecord; EvShortcut accelWindow;
               EvShortcut accelRecord; EvShortcut accelRecord] eq_refl)
    as (_ & Hlen & Hlast).
  split; [exact Hlen|].
  apply Hlast. discriminate.
Defined.
